(** * ui/hooks/useCurrencyDisplay.js

    A shallow embedding of the [useCurrencyDisplay] hook and the
    properties its specification states about it.

    The hook reads three values of the store, resolves the value to
    display (the [useMemo] callback), resolves the suffix, and assembles
    the display string.  The modules it imports ([Numeric],
    [getValueFromWeiHex], [formatCurrency], [EtherDenomination],
    [TEST_NETWORK_TICKER_MAP]) and the case mapping of the host
    ([String.prototype.toUpperCase]) are parameters of the embedding.
    A string is the sequence of the bytes of its UTF-8 encoding. *)

From Stdlib Require Import ZArith QArith List String Ascii Bool Lia.
From Stdlib Require Import DecimalString.
Import ListNotations.
Local Open Scope string_scope.
Local Open Scope Z_scope.

(* ================================================================= *)
(** ** The JavaScript operations the hook uses *)

Module Js.

(** A call either returns or throws. *)
Inductive completion (A : Type) : Type :=
| Normal (a : A)
| Throw (e : string).
Arguments Normal {A} a.
Arguments Throw {A} e.

Definition bind {A B} (c : completion A) (k : A -> completion B)
  : completion B :=
  match c with
  | Normal a => k a
  | Throw e => Throw e
  end.

(** [ToBoolean], per type of value.  An absent value ([undefined],
    [null]) is [None]. *)
Class Truthy (A : Type) := truthy : A -> bool.

#[export] Instance truthy_bool : Truthy bool := fun b => b.
#[export] Instance truthy_string : Truthy string :=
  fun s => negb (s =? "")%string.
#[export] Instance truthy_Z : Truthy Z := fun n => negb (n =? 0)%Z.
#[export] Instance truthy_Q : Truthy Q := fun q => negb (Qeq_bool q 0).
#[export] Instance truthy_option {A} `{Truthy A} : Truthy (option A) :=
  fun o => match o with Some a => truthy a | None => false end.

(** [a || b] where both sides may be absent. *)
Definition or {A} `{Truthy A} (a b : option A) : option A :=
  if truthy a then a else b.

(** [a || d] where [d] is a literal or a constant. *)
Definition or_default {A} `{Truthy A} (a : option A) (d : A) : A :=
  match a with
  | Some x => if truthy x then x else d
  | None => d
  end.

(** [a === b] on values that are a string or [undefined]. *)
Definition strict_eq (a b : option string) : bool :=
  match a, b with
  | Some x, Some y => (x =? y)%string
  | None, None => true
  | _, _ => false
  end.

(** What [String.prototype.toUpperCase] does to a string of ASCII
    characters: the letters [a] to [z] become [A] to [Z].  The case
    mapping of other characters is left to the host (see [Imports]);
    this one serves the examples, whose strings are ASCII. *)
Definition upper (c : ascii) : ascii :=
  let n := N_of_ascii c in
  if ((97 <=? n) && (n <=? 122))%N then ascii_of_N (n - 32) else c.

Fixpoint asciiToUpperCase (s : string) : string :=
  match s with
  | EmptyString => EmptyString
  | String c r => String (upper c) (asciiToUpperCase r)
  end.

(** A value inside a template literal: [null] prints as its name. *)
Definition template_value (v : option string) : string :=
  match v with
  | Some s => s
  | None => "null"
  end.

(** *** [Number(string)]

    The mathematical value of a string numeric literal, before it is
    rounded to a double: [Finite m e] is [m * 10^e]. *)
Inductive number : Type :=
| NaN
| Infinity (negative : bool)
| Finite (mantissa exponent : Z).

(** StrWhiteSpaceChar: the white space and the line terminators of the
    language, each as the bytes of its UTF-8 encoding. *)
Definition white_space : list (list ascii) :=
  List.map (List.map ascii_of_nat)
    [ [9]; [10]; [11]; [12]; [13]; [32]     (* TAB LF VT FF CR SP *)
    ; [194; 160]                            (* U+00A0 *)
    ; [225; 154; 128]                       (* U+1680 *)
    ; [226; 128; 128]; [226; 128; 129]; [226; 128; 130]
    ; [226; 128; 131]; [226; 128; 132]; [226; 128; 133]
    ; [226; 128; 134]; [226; 128; 135]; [226; 128; 136]
    ; [226; 128; 137]; [226; 128; 138]      (* U+2000 to U+200A *)
    ; [226; 128; 168]; [226; 128; 169]      (* U+2028 U+2029 *)
    ; [226; 128; 175]                       (* U+202F *)
    ; [226; 129; 159]                       (* U+205F *)
    ; [227; 128; 128]                       (* U+3000 *)
    ; [239; 187; 191] ]%nat.                (* U+FEFF *)

(** [l] without its prefix [p], when it has that prefix. *)
Fixpoint strip_prefix (p l : list ascii) : option (list ascii) :=
  match p, l with
  | [], _ => Some l
  | a :: p', b :: l' => if (a =? b)%char then strip_prefix p' l' else None
  | _ :: _, [] => None
  end.

(** [l] without the first of the patterns it starts with. *)
Fixpoint strip_any (patterns : list (list ascii)) (l : list ascii)
  : option (list ascii) :=
  match patterns with
  | [] => None
  | p :: rest =>
      match strip_prefix p l with
      | Some t => Some t
      | None => strip_any rest l
      end
  end.

(** [l] without the patterns it starts with, one after the other. *)
Fixpoint skip (patterns : list (list ascii)) (fuel : nat)
  (l : list ascii) : list ascii :=
  match fuel with
  | O => l
  | S fuel' =>
      match strip_any patterns l with
      | Some t => skip patterns fuel' t
      | None => l
      end
  end.

(** Whether a pattern starts with the byte [c]. *)
Definition begins (patterns : list (list ascii)) (c : ascii) : bool :=
  existsb (fun p => match p with
                    | b :: _ => (b =? c)%char
                    | [] => true
                    end) patterns.

Definition skip_all (patterns : list (list ascii)) (l : list ascii)
  : list ascii :=
  skip patterns (List.length l) l.

(** White space is removed at both ends; at the end, the bytes are
    read backwards. *)
Definition trim (l : list ascii) : list ascii :=
  rev (skip_all (List.map (@rev ascii) white_space)
         (rev (skip_all white_space l))).

Definition digit_value (radix : Z) (c : ascii) : option Z :=
  let n := Z.of_N (N_of_ascii c) in
  let d :=
    if (48 <=? n) && (n <=? 57) then n - 48
    else if (97 <=? n) && (n <=? 122) then n - 87
    else if (65 <=? n) && (n <=? 90) then n - 55
    else radix in
  if d <? radix then Some d else None.

(** The value of a run of digits; [None] when a character is not a
    digit of the radix. *)
Fixpoint digits_value (radix acc : Z) (l : list ascii) : option Z :=
  match l with
  | [] => Some acc
  | c :: r =>
      match digit_value radix c with
      | Some d => digits_value radix (acc * radix + d) r
      | None => None
      end
  end.

Definition nonempty_digits_value (radix : Z) (l : list ascii)
  : option Z :=
  match l with
  | [] => None
  | _ => digits_value radix 0 l
  end.

Definition is_decimal_digit (c : ascii) : bool :=
  let n := N_of_ascii c in ((48 <=? n) && (n <=? 57))%N.

(** The leading decimal digits and what follows them. *)
Fixpoint span_digits (l : list ascii) : list ascii * list ascii :=
  match l with
  | c :: r =>
      if is_decimal_digit c
      then let (d, t) := span_digits r in (c :: d, t)
      else ([], l)
  | [] => ([], [])
  end.

(** SignedInteger of an ExponentPart. *)
Definition signed_integer (l : list ascii) : option Z :=
  match l with
  | "+"%char :: r => nonempty_digits_value 10 r
  | "-"%char :: r => option_map Z.opp (nonempty_digits_value 10 r)
  | _ => nonempty_digits_value 10 l
  end.

Definition is_nil {A} (l : list A) : bool :=
  match l with [] => true | _ => false end.

Definition StrUnsignedDecimalLiteral (l : list ascii) : number :=
  if (string_of_list_ascii l =? "Infinity")%string then Infinity false
  else
    let (int_part, r1) := span_digits l in
    let (frac_part, r2) :=
      match r1 with
      | "."%char :: r => span_digits r
      | _ => ([], r1)
      end in
    if is_nil int_part && is_nil frac_part then NaN
    else
      match digits_value 10 0 (int_part ++ frac_part) with
      | None => NaN
      | Some m =>
          let scale := Z.of_nat (List.length frac_part) in
          match r2 with
          | [] => Finite m (- scale)
          | c :: r =>
              if (c =? "e")%char || (c =? "E")%char
              then match signed_integer r with
                   | Some e => Finite m (e - scale)
                   | None => NaN
                   end
              else NaN
          end
      end.

Definition negate (n : number) : number :=
  match n with
  | NaN => NaN
  | Infinity s => Infinity (negb s)
  | Finite m e => Finite (- m) e
  end.

Definition NonDecimalIntegerLiteral (radix : Z) (l : list ascii)
  : number :=
  match nonempty_digits_value radix l with
  | Some m => Finite m 0
  | None => NaN
  end.

Definition StrNumericLiteral (l : list ascii) : number :=
  match l with
  | "0"%char :: c :: r =>
      if (c =? "x")%char || (c =? "X")%char
      then NonDecimalIntegerLiteral 16 r
      else if (c =? "o")%char || (c =? "O")%char
      then NonDecimalIntegerLiteral 8 r
      else if (c =? "b")%char || (c =? "B")%char
      then NonDecimalIntegerLiteral 2 r
      else StrUnsignedDecimalLiteral l
  | "+"%char :: r => StrUnsignedDecimalLiteral r
  | "-"%char :: r => negate (StrUnsignedDecimalLiteral r)
  | _ => StrUnsignedDecimalLiteral l
  end.

(** [Number(s)] for a string [s]: the empty string, and a string of
    white space, is 0. *)
Definition Number (s : string) : number :=
  match trim (list_ascii_of_string s) with
  | [] => Finite 0 0
  | l => StrNumericLiteral l
  end.

(** [n !== 0] after rounding to a double.  A literal is 0 when its
    mantissa is, and when it is at most 2^-1075 in magnitude (half
    the least positive double, which rounds to even). *)
Definition rounds_to_zero (m e : Z) : bool :=
  (m =? 0) || ((e <? 0) && (Z.abs m * 2 ^ 1075 <=? 10 ^ (- e))).

Definition not_zero (n : number) : bool :=
  match n with
  | Finite m e => negb (rounds_to_zero m e)
  | _ => true
  end.

End Js.

Import Js.

Notation "x <- c ;; k" := (Js.bind c (fun x => k))
  (at level 61, c at next level, right associativity).

(* ================================================================= *)
(** ** What the hook imports *)

(** [shared/modules/Numeric]: the methods the hook chains.  Each call
    may throw. *)
Record NumericOps : Type := {
  numeric : Type;
  (** [new Numeric(value, base, denomination)] *)
  Numeric_new : string -> Z -> string -> completion numeric;
  toDenomination : numeric -> string -> completion numeric;
  round : numeric -> Z -> completion numeric;
  toBase : numeric -> Z -> completion numeric;
  toString : numeric -> completion string
}.

(** The argument object of [getValueFromWeiHex]. *)
Module GetValueFromWeiHex.
Record args : Type := mk {
  value : string;
  fromCurrency : option string;
  toCurrency : option string;
  conversionRate : option Q;
  numberOfDecimals : Z;
  toDenomination : option string
}.
End GetValueFromWeiHex.

(** [shared/modules/conversion.utils] and
    [ui/helpers/utils/confirm-tx.util]. *)
Record FiatOps : Type := {
  fiat : Type;
  getValueFromWeiHex : GetValueFromWeiHex.args -> completion fiat;
  (** [formatCurrency(value, currencyCode)] *)
  formatCurrency : fiat -> option string -> completion string
}.

(** [shared/constants/common]: the members of [EtherDenomination] the
    hook names. *)
Module EtherDenomination.
Record t : Type := mk { WEI : string; ETH : string }.
End EtherDenomination.

Record Imports : Type := {
  Numeric : NumericOps;
  Fiat : FiatOps;
  EtherDenominations : EtherDenomination.t;
  (** [shared/constants/network]: an object, as its entries in order. *)
  TEST_NETWORK_TICKER_MAP : list (string * string);
  (** [String.prototype.toUpperCase], the case mapping of the host. *)
  toUpperCase : string -> string
}.

(* ================================================================= *)
(** ** The hook *)

(** The second parameter, destructured as
    [{ displayValue, prefix, numberOfDecimals, denomination, currency,
       ...opts }]; of [opts] the hook reads [hideLabel] and [suffix]. *)
Module UseCurrencyOptions.
Record t : Type := mk {
  displayValue : option string;
  prefix : option string;
  numberOfDecimals : option Z;
  denomination : option string;
  currency : option string;
  hideLabel : option bool;
  suffix : option string
}.
End UseCurrencyOptions.

(** The second component of the result.  An absent [value] is [null],
    an absent [prefix] or [suffix] is [undefined]. *)
Module CurrencyDisplayParts.
Record t : Type := mk {
  prefix : option string;
  value : option string;
  suffix : option string
}.
End CurrencyDisplayParts.

(** What the three selectors read from the store. *)
Module Store.
Record t : Type := mk {
  getCurrentCurrency : option string;
  getNativeCurrency : option string;
  getConversionRate : option Q
}.
End Store.

Definition MIN_DISPLAY_AMOUNT : string := "<0.000001".

Definition DEFAULT_PRECISION_DECIMALS : Z := 6.

(** [Object.values(map).includes(x)] *)
Definition values_include (map : list (string * string))
  (x : option string) : bool :=
  existsb (fun v => strict_eq (Some v) x) (List.map snd map).

Section Hook.

Variable I : Imports.

Let N := Numeric I.
Let F := Fiat I.

Section Call.

Variable inputValue : string.
Variable o : UseCurrencyOptions.t.
Variable store : Store.t.

Let displayValue := UseCurrencyOptions.displayValue o.
Let prefix := UseCurrencyOptions.prefix o.
Let numberOfDecimals := UseCurrencyOptions.numberOfDecimals o.
Let denomination := UseCurrencyOptions.denomination o.
Let currency := UseCurrencyOptions.currency o.

Let currentCurrency := Store.getCurrentCurrency store.
Let nativeCurrency := Store.getNativeCurrency store.
Let conversionRate := Store.getConversionRate store.

Definition isUserPreferredCurrency : bool :=
  strict_eq currency currentCurrency.

(** The condition of the first conversion branch (lines 63-66). *)
Definition nativePath : bool :=
  strict_eq currency nativeCurrency
  || (negb isUserPreferredCurrency && negb (truthy nativeCurrency)).

(** The condition of the second conversion branch (line 76). *)
Definition fiatPath : bool :=
  isUserPreferredCurrency && truthy conversionRate.

(** Lines 67-71, the chain of [Numeric] calls, at a precision. *)
Definition ethDisplayValue (precision : Z) : completion string :=
  n0 <- Numeric_new N inputValue 16
          (EtherDenomination.WEI (EtherDenominations I)) ;;
  n1 <- toDenomination N n0
          (or_default denomination
             (EtherDenomination.ETH (EtherDenominations I))) ;;
  n2 <- round N n1 precision ;;
  n3 <- toBase N n2 10 ;;
  toString N n3.

(** Lines 77-87, the two fiat calls, at a precision. *)
Definition fiatDisplayValue (precision : Z) : completion string :=
  v <- getValueFromWeiHex F
         (GetValueFromWeiHex.mk inputValue nativeCurrency currency
            conversionRate precision denomination) ;;
  formatCurrency F v currency.

(** Lines 73-75, the expression returned by the first branch. *)
Definition orMinDisplayAmount (ethDisplayValue : string) : string :=
  if (ethDisplayValue =? "0")%string
     && truthy inputValue
     && not_zero (Number inputValue)
  then MIN_DISPLAY_AMOUNT
  else ethDisplayValue.

(** The [useMemo] callback.  Its dependency list names every
    variable it reads, so the memoised value is its result. *)
Definition value : completion (option string) :=
  if truthy displayValue then Normal displayValue
  else if nativePath then
    ethDisplayValue <-
      ethDisplayValue
        (or_default numberOfDecimals DEFAULT_PRECISION_DECIMALS) ;;
    Normal (Some (orMinDisplayAmount ethDisplayValue))
  else if fiatPath then
    s <- fiatDisplayValue (or_default numberOfDecimals 2) ;;
    Normal (Some s)
  else Normal None.

(** Lines 101-113. *)
Definition suffix : option string :=
  if negb (truthy (UseCurrencyOptions.hideLabel o)) then
    let currencyTickerSymbol :=
      if values_include (TEST_NETWORK_TICKER_MAP I) currency
      then currency
      else option_map (toUpperCase I) currency in
    or (UseCurrencyOptions.suffix o) currencyTickerSymbol
  else None.

(** The template literal of line 116. *)
Definition display (value suffix : option string) : string :=
  or_default prefix ""
  ++ template_value value
  ++ match suffix with
     | Some s => if truthy s then " " ++ s else ""
     | None => ""
     end.

Definition useCurrencyDisplay
  : completion (string * CurrencyDisplayParts.t) :=
  value <- value ;;
  let suffix := suffix in
  Normal (display value suffix,
          CurrencyDisplayParts.mk prefix value suffix).

End Call.

End Hook.

(* ================================================================= *)
(** ** The imported modules, as the specification describes them *)

Module Modelled.

(** An amount [units / 10^places], tagged as [Numeric] tags it. *)
Record amount : Type := mk {
  units : Z;
  places : nat;
  base : Z;
  denomination : string
}.

(** The digits of a natural number. *)
Definition digits (n : Z) : string :=
  NilZero.string_of_uint (N.to_uint (Z.to_N n)).

(** The last [k] digits of [n], with leading zeros. *)
Definition padded (k : nat) (n : Z) : string :=
  match digits (10 ^ Z.of_nat k + n mod 10 ^ Z.of_nat k) with
  | String _ r => r
  | EmptyString => EmptyString
  end.

Definition sign (u : Z) : string := if u <? 0 then "-" else "".

(** Base-10 rendering with exactly [k] decimals. *)
Definition render_fixed (u : Z) (k : nat) : string :=
  sign u ++ digits (Z.abs u / 10 ^ Z.of_nat k)
  ++ (if (k =? 0)%nat then "" else "." ++ padded k (Z.abs u)).

(** The same amount without trailing zero decimals. *)
Fixpoint shorten (u : Z) (k : nat) : Z * nat :=
  match k with
  | O => (u, O)
  | S k' => if u mod 10 =? 0 then shorten (u / 10) k' else (u, k)
  end.

(** Base-10 rendering, no trailing zero after the point. *)
Definition render (u : Z) (k : nat) : string :=
  let (u', k') := shorten u k in render_fixed u' k'.

(** A hexadecimal string: [0x] and at least one digit. *)
Definition parse_hex (s : string) : option Z :=
  match list_ascii_of_string s with
  | "0"%char :: "x"%char :: r => nonempty_digits_value 16 r
  | _ => None
  end.

(** The power of ten of a unit scale, in smallest units. *)
Definition unit_scale (d : string) : option nat :=
  if (d =? "WEI")%string then Some 0%nat
  else if (d =? "GWEI")%string then Some 9%nat
  else if (d =? "ETH")%string then Some 18%nat
  else None.

Definition rescale (a : amount) (d : string) : completion amount :=
  match unit_scale (denomination a), unit_scale d with
  | Some from, Some to =>
      if (from <=? places a + to)%nat
      then Normal (mk (units a) (places a + to - from) (base a) d)
      else Normal (mk (units a * 10 ^ Z.of_nat (from - (places a + to)))
                     0 (base a) d)
  | _, _ => Throw "unknown denomination"
  end.

(** Rounding to [p] decimals, halves upwards. *)
Definition round_half_up (u : Z) (k p : nat) : Z :=
  let d := 10 ^ Z.of_nat (k - p) in (2 * u + d) / (2 * d).

Definition round_to (a : amount) (p : Z) : completion amount :=
  if p <? 0 then Throw "negative precision"
  else
    let p := Z.to_nat p in
    if (places a <=? p)%nat then Normal a
    else Normal (mk (round_half_up (units a) (places a) p) p
                   (base a) (denomination a)).

Definition new_amount (s : string) (b : Z) (d : string)
  : completion amount :=
  if b =? 16 then
    match parse_hex s with
    | Some u => Normal (mk u 0 b d)
    | None => Throw "not a hexadecimal string"
    end
  else Throw "base not modelled".

Definition print (a : amount) : completion string :=
  if base a =? 10 then Normal (render (units a) (places a))
  else Throw "base not modelled".

(** Modelled from the spec: [shared/modules/Numeric] is not among the
    sources.  Section 4.1: the hexadecimal count of smallest units is
    converted to the requested denomination, rounded to a number of
    decimal places and rendered in base 10; section 8: 10^18 smallest
    units are one native unit.  The spec names no rounding mode, and
    leaves open what happens on malformed input: here halves are
    rounded upwards and a malformed call throws. *)
Definition NumericModel : NumericOps := {|
  numeric := amount;
  Numeric_new := new_amount;
  toDenomination := rescale;
  round := round_to;
  toBase := fun a b => Normal (mk (units a) (places a) b (denomination a));
  toString := print
|}.

(** [a * r], rounded to [p] decimals, halves upwards. *)
Definition times_rate (a : amount) (r : Q) (p : nat) : Z :=
  let num := units a * Qnum r * 10 ^ Z.of_nat p in
  let den := Z.pos (Qden r) * 10 ^ Z.of_nat (places a) in
  (2 * num + den) / (2 * den).

Definition convert (x : GetValueFromWeiHex.args) : completion amount :=
  n0 <- new_amount (GetValueFromWeiHex.value x) 16 "WEI" ;;
  n1 <- rescale n0
          (or_default (GetValueFromWeiHex.toDenomination x) "ETH") ;;
  if strict_eq (GetValueFromWeiHex.fromCurrency x)
       (GetValueFromWeiHex.toCurrency x)
  then round_to n1 (GetValueFromWeiHex.numberOfDecimals x)
  else
    match GetValueFromWeiHex.conversionRate x with
    | None => Throw "no conversion rate"
    | Some r =>
        let p := GetValueFromWeiHex.numberOfDecimals x in
        if p <? 0 then Throw "negative precision"
        else Normal (mk (times_rate n1 r (Z.to_nat p)) (Z.to_nat p) 10
                       (denomination n1))
    end.

(** Digits in groups of three, from the right. *)
Fixpoint group (k : nat) (l : list ascii) : list ascii :=
  match l with
  | [] => []
  | c :: r =>
      match k with
      | O => ","%char :: c :: group 2 r
      | S k' => c :: group k' r
      end
  end.

Definition grouped (s : string) : string :=
  string_of_list_ascii (rev (group 3 (rev (list_ascii_of_string s)))).

(** The symbol of a currency code, written before the amount. *)
Definition symbol (code : option string) : string :=
  match code with
  | Some c => if (asciiToUpperCase c =? "USD")%string then "$" else ""
  | None => ""
  end.

Definition format (a : amount) (code : option string)
  : completion string :=
  let u := Z.abs (units a) in
  let k := places a in
  Normal
    (sign (units a) ++ symbol code
     ++ grouped (digits (u / 10 ^ Z.of_nat k))
     ++ (if (k =? 0)%nat then "" else "." ++ padded k u)).

(** Modelled from the spec: [getValueFromWeiHex] and [formatCurrency]
    are not among the sources.  Section 4.1: the hexadecimal amount is
    converted through the native currency into the target currency
    with the supplied rate and rounded to a number of decimal places;
    the formatter adds grouping separators and the symbol of the
    currency code.  The table of symbols belongs to the formatting
    library; the model knows the dollar only. *)
Definition FiatModel : FiatOps := {|
  fiat := amount;
  getValueFromWeiHex := convert;
  formatCurrency := format
|}.

(** Imports for the examples: the modelled modules, the denomination
    names, a ticker table of two test networks, and the case mapping of
    ASCII strings. *)
Definition imports : Imports := {|
  Numeric := NumericModel;
  Fiat := FiatModel;
  EtherDenominations := EtherDenomination.mk "WEI" "ETH";
  TEST_NETWORK_TICKER_MAP :=
    [("goerli", "GoerliETH"); ("sepolia", "SepoliaETH")];
  toUpperCase := asciiToUpperCase
|}.

End Modelled.

(* ================================================================= *)
(** ** Reading the result *)

(** The [value] part of what the hook returns. *)
Definition valueOf (r : completion (string * CurrencyDisplayParts.t))
  : completion (option string) :=
  p <- r ;; Normal (CurrencyDisplayParts.value (snd p)).

(** The [suffix] part of what the hook returns. *)
Definition suffixOf (r : completion (string * CurrencyDisplayParts.t))
  : completion (option string) :=
  p <- r ;; Normal (CurrencyDisplayParts.suffix (snd p)).


(** The store with [conversionRate] replaced. *)
Definition withConversionRate (r : option Q) (s : Store.t) : Store.t :=
  Store.mk (Store.getCurrentCurrency s) (Store.getNativeCurrency s) r.

(** The imports with the fiat modules replaced. *)
Definition withFiat (F : FiatOps) (I : Imports) : Imports :=
  Build_Imports (Numeric I) F (EtherDenominations I)
    (TEST_NETWORK_TICKER_MAP I) (toUpperCase I).

(** The hexadecimal strings of zero: [0x0], [0x00], ... *)
Definition hexZero (k : nat) : string :=
  string_of_list_ascii ("0" :: "x" :: "0" :: repeat "0" k)%char.

(** The imports with [Numeric] and the denomination names replaced. *)
Definition withNumeric (N : NumericOps) (E : EtherDenomination.t)
  (I : Imports) : Imports :=
  Build_Imports N (Fiat I) E (TEST_NETWORK_TICKER_MAP I) (toUpperCase I).

(* ================================================================= *)
(** ** The hook across renders

    [useMemo] keeps, between the renders of a component, the dependency
    list and the value of the last render that ran the callback, and
    runs the callback again when an entry of the list has changed. *)

(** The dependency list of lines 90-99. *)
Module Deps.
Record t : Type := mk {
  inputValue : string;
  nativeCurrency : option string;
  conversionRate : option Q;
  displayValue : option string;
  numberOfDecimals : option Z;
  denomination : option string;
  currency : option string;
  isUserPreferredCurrency : bool
}.
End Deps.

Module Memo.

(** [Object.is] on a number that may be absent.  A number has one
    representation, so the fraction that stands for a rate is compared
    as it is written. *)
Definition is_Z (a b : option Z) : bool :=
  match a, b with
  | Some x, Some y => x =? y
  | None, None => true
  | _, _ => false
  end.

Definition is_Q (a b : option Q) : bool :=
  match a, b with
  | Some x, Some y => (Qnum x =? Qnum y) && (Qden x =? Qden y)%positive
  | None, None => true
  | _, _ => false
  end.

(** No entry of the list has changed. *)
Definition unchanged (a b : Deps.t) : bool :=
  (Deps.inputValue a =? Deps.inputValue b)%string
  && strict_eq (Deps.nativeCurrency a) (Deps.nativeCurrency b)
  && is_Q (Deps.conversionRate a) (Deps.conversionRate b)
  && strict_eq (Deps.displayValue a) (Deps.displayValue b)
  && is_Z (Deps.numberOfDecimals a) (Deps.numberOfDecimals b)
  && strict_eq (Deps.denomination a) (Deps.denomination b)
  && strict_eq (Deps.currency a) (Deps.currency b)
  && Bool.eqb (Deps.isUserPreferredCurrency a)
       (Deps.isUserPreferredCurrency b).

(** What [useMemo] keeps: nothing before the first render. *)
Definition cell : Type := option (Deps.t * option string).

(** [useMemo(callback, deps)].  A callback that throws leaves the cell
    as it was. *)
Definition useMemo (c : cell) (callback : unit -> completion (option string))
  (d : Deps.t) : completion (option string) * cell :=
  let compute :=
    match callback tt with
    | Normal v => (Normal v, Some (d, v))
    | Throw e => (Throw e, c)
    end in
  match c with
  | Some (d', v) => if unchanged d' d then (Normal v, c) else compute
  | None => compute
  end.

(** The list the hook passes on a render. *)
Definition depsOf (i : string) (o : UseCurrencyOptions.t) (store : Store.t)
  : Deps.t :=
  Deps.mk i (Store.getNativeCurrency store) (Store.getConversionRate store)
    (UseCurrencyOptions.displayValue o)
    (UseCurrencyOptions.numberOfDecimals o)
    (UseCurrencyOptions.denomination o) (UseCurrencyOptions.currency o)
    (isUserPreferredCurrency o store).

(** One render of the hook, with the cell it finds and the cell it
    leaves. *)
Definition render (I : Imports) (c : cell) (i : string)
  (o : UseCurrencyOptions.t) (store : Store.t)
  : completion (string * CurrencyDisplayParts.t) * cell :=
  let (value, c') :=
    useMemo c (fun _ => value I i o store) (depsOf i o store) in
  (value <- value ;;
   Normal (display o value (suffix I o),
           CurrencyDisplayParts.mk (UseCurrencyOptions.prefix o) value
             (suffix I o)),
   c').

(** The arguments and the store of a render. *)
Definition call : Type := (string * UseCurrencyOptions.t * Store.t)%type.

(** The results of successive renders. *)
Fixpoint renders (I : Imports) (c : cell) (calls : list call)
  : list (completion (string * CurrencyDisplayParts.t)) :=
  match calls with
  | [] => []
  | (i, o, store) :: rest =>
      let (r, c') := render I c i o store in r :: renders I c' rest
  end.

End Memo.

(** What a cell holds is the value of the callback for every call with
    the dependency list it holds. *)
Definition fresh (I : Imports) (c : Memo.cell) : Prop :=
  forall d v, c = Some (d, v) ->
  forall i o store, Memo.depsOf i o store = d ->
                    value I i o store = Normal v.

(** The options with [denomination] replaced. *)
Definition withDenomination (d : option string) (o : UseCurrencyOptions.t)
  : UseCurrencyOptions.t :=
  UseCurrencyOptions.mk
    (UseCurrencyOptions.displayValue o) (UseCurrencyOptions.prefix o)
    (UseCurrencyOptions.numberOfDecimals o) d
    (UseCurrencyOptions.currency o) (UseCurrencyOptions.hideLabel o)
    (UseCurrencyOptions.suffix o).

(** ** Inputs of the examples *)

Module Example.

(** Ether on a network whose native currency is ether; the user
    prefers dollars, at 2000 dollars the ether. *)
Definition store : Store.t :=
  Store.mk (Some "usd") (Some "ETH") (Some (2000 # 1)).

Definition options (currency : string) : UseCurrencyOptions.t :=
  UseCurrencyOptions.mk None None None None (Some currency) None None.

Definition oneEther : string := "0xde0b6b3a7640000".

(** 1.23456789 ether. *)
Definition someEther : string := "0x112210f4768db400".


(** Ether with a prefix, the label hidden, and a label of the caller
    that is therefore not shown. *)
Definition hidden : UseCurrencyOptions.t :=
  UseCurrencyOptions.mk None (Some "~") None None (Some "ETH")
    (Some true) (Some "ether").

Definition sepolia : Store.t :=
  Store.mk (Some "usd") (Some "SepoliaETH") None.

(** Fiat modules that are out of order. *)
Definition noFiat : FiatOps := {|
  fiat := unit;
  getValueFromWeiHex := fun _ => Throw "unavailable";
  formatCurrency := fun _ _ => Throw "unavailable"
|}.

(** An empty display value, for euros. *)
Definition emptyDisplayValue : UseCurrencyOptions.t :=
  UseCurrencyOptions.mk (Some "") None None None (Some "eur") None None.

(** A display value that is already formatted. *)
Definition formatted : UseCurrencyOptions.t :=
  UseCurrencyOptions.mk (Some "12.5") None (Some 3) None (Some "eur")
    None None.

(** Dollars, with a label of the caller. *)
Definition labelled : UseCurrencyOptions.t :=
  UseCurrencyOptions.mk None None None None (Some "usd") None
    (Some "dollars").

(** A prefix and nothing else: no currency, no label. *)
Definition bare : UseCurrencyOptions.t :=
  UseCurrencyOptions.mk None (Some "~") None None None None None.

(** A store that has no native currency. *)
Definition noNative : Store.t :=
  Store.mk (Some "usd") None (Some (2000 # 1)).

(** A store whose conversion rate is 0. *)
Definition zeroRate : Store.t :=
  Store.mk (Some "usd") (Some "ETH") (Some (0 # 1)).

(** Ether, with a denomination that is the empty string. *)
Definition emptyDenomination : UseCurrencyOptions.t :=
  UseCurrencyOptions.mk None None None (Some "") (Some "ETH") None None.

(** Euros, which the store cannot convert, with a prefix. *)
Definition prefixed : UseCurrencyOptions.t :=
  UseCurrencyOptions.mk None (Some "~") None None (Some "eur") None None.

(** Ether with a prefix. *)
Definition approximate : UseCurrencyOptions.t :=
  UseCurrencyOptions.mk None (Some "about ") None None (Some "ETH") None
    None.

(** A [Numeric] that is out of order. *)
Definition noNumeric : NumericOps := {|
  numeric := unit;
  Numeric_new := fun _ _ _ => Throw "unavailable";
  toDenomination := fun _ _ => Throw "unavailable";
  round := fun _ _ => Throw "unavailable";
  toBase := fun _ _ => Throw "unavailable";
  toString := fun _ => Throw "unavailable"
|}.

End Example.

(* ================================================================= *)
(** ** Properties *)

Lemma strict_eq_true (a b : option string) :
  strict_eq a b = true <-> a = b.
Proof.
  destruct a as [x|], b as [y|]; simpl; split; intro H;
    try discriminate; try reflexivity.
  - apply String.eqb_eq in H. now subst.
  - injection H as ->. apply String.eqb_refl.
Qed.

(** A string that is supplied is truthy when it is not empty. *)
Lemma truthy_nonempty (s : string) :
  truthy (Some s) = true <-> s <> "".
Proof.
  cbv [truthy truthy_option truthy_string].
  destruct (String.eqb_spec s ""); simpl; split; intro H;
    congruence.
Qed.

Lemma append_empty (s : string) : (s ++ "")%string = s.
Proof. induction s as [|c r IH]; simpl; [reflexivity | now rewrite IH]. Qed.

(** A falsy option gives way to the default. *)
Lemma or_default_falsy {A} `{Truthy A} (a : option A) (d : A) :
  truthy a = false -> or_default a d = d.
Proof.
  destruct a as [x|]; [|reflexivity].
  cbv [truthy truthy_option or_default]. now intros ->.
Qed.

Lemma values_include_In (map : list (string * string)) (c : string) :
  values_include map (Some c) = true <-> In c (List.map snd map).
Proof.
  unfold values_include. rewrite existsb_exists. split.
  - intros [v [Hin Heq]]. apply strict_eq_true in Heq.
    injection Heq as ->. exact Hin.
  - intro Hin. exists c. split; [exact Hin | now apply strict_eq_true].
Qed.

Lemma Number_empty : not_zero (Number "") = false.
Proof. reflexivity. Qed.

(** An input whose number is not 0 is not the empty string. *)
Lemma not_zero_truthy (s : string) :
  not_zero (Number s) = true -> truthy s = true.
Proof.
  destruct s as [|c r]; [rewrite Number_empty; discriminate | reflexivity].
Qed.

(** *** Zero, as [Number] and as the modelled [Numeric] read it *)

Lemma digits_value_zeros (radix : Z) (k : nat) :
  1 < radix -> digits_value radix 0 (repeat "0"%char k) = Some 0.
Proof.
  intro Hr. induction k as [|k IH]; [reflexivity|].
  simpl. unfold digit_value. simpl.
  destruct (0 <? radix) eqn:E; [exact IH | apply Z.ltb_ge in E; lia].
Qed.

Lemma strip_any_none (patterns : list (list ascii)) (c : ascii)
  (l : list ascii) :
  begins patterns c = false -> strip_any patterns (c :: l) = None.
Proof.
  induction patterns as [|p rest IH]; [reflexivity|].
  simpl. intro H. apply orb_false_iff in H. destruct H as [Hp Hr].
  destruct p as [|b p']; [discriminate Hp|].
  simpl. rewrite Hp. now apply IH.
Qed.

Lemma skip_all_none (patterns : list (list ascii)) (c : ascii)
  (l : list ascii) :
  begins patterns c = false ->
  skip_all patterns (c :: l) = (c :: l)%list.
Proof.
  intro H. unfold skip_all. simpl List.length. cbn [skip].
  now rewrite (strip_any_none patterns c l H).
Qed.

(** Nothing is trimmed from a string whose first byte starts no white
    space and whose last byte ends none. *)
Lemma trim_no_white_space (c d : ascii) (l : list ascii) :
  begins white_space c = false ->
  begins (List.map (@rev ascii) white_space) d = false ->
  trim (c :: l ++ [d])%list = (c :: l ++ [d])%list.
Proof.
  intros Hc Hd. unfold trim. rewrite (skip_all_none _ c _ Hc).
  assert (Hr : rev (c :: l ++ [d])%list = (d :: rev l ++ [c])%list).
  { simpl. now rewrite rev_app_distr. }
  rewrite Hr, (skip_all_none _ d _ Hd), <- Hr. apply rev_involutive.
Qed.

Lemma trim_hexZero (k : nat) :
  trim ("0" :: "x" :: "0" :: repeat "0" k)%char
  = ("0" :: "x" :: "0" :: repeat "0" k)%char.
Proof.
  rewrite (repeat_cons k "0"%char).
  apply (trim_no_white_space "0" "0" ("x"%char :: repeat "0"%char k));
    reflexivity.
Qed.

(** [Number] of a hexadecimal zero is 0. *)
Lemma Number_hexZero (k : nat) : not_zero (Number (hexZero k)) = false.
Proof.
  unfold Number, hexZero. rewrite list_ascii_of_string_of_list_ascii.
  rewrite trim_hexZero. simpl. unfold NonDecimalIntegerLiteral.
  change (nonempty_digits_value 16 ("0" :: repeat "0" k)%char)
    with (digits_value 16 0 (repeat "0" (S k))%char).
  rewrite digits_value_zeros by lia. reflexivity.
Qed.

Lemma shorten_zero (k : nat) : Modelled.shorten 0 k = (0, 0%nat).
Proof. induction k as [|k IH]; [reflexivity | exact IH]. Qed.

Lemma round_half_up_zero (k p : nat) : Modelled.round_half_up 0 k p = 0.
Proof.
  unfold Modelled.round_half_up.
  assert (H : 0 < 10 ^ Z.of_nat (k - p)) by (apply Z.pow_pos_nonneg; lia).
  cbv zeta. generalize dependent (10 ^ Z.of_nat (k - p)). intros d H.
  apply Z.div_small. lia.
Qed.

(** The modelled [Numeric] prints a hexadecimal zero as "0", in every
    denomination it knows and at every precision that is not negative. *)
Lemma Modelled_prints_zero (k : nat) (o : UseCurrencyOptions.t)
  (precision : Z) (scale : nat) :
  Modelled.unit_scale
    (or_default (UseCurrencyOptions.denomination o) "ETH") = Some scale ->
  0 <= precision ->
  ethDisplayValue Modelled.imports (hexZero k) o precision = Normal "0".
Proof.
  intros Hs Hp. unfold ethDisplayValue. simpl.
  unfold Modelled.new_amount, Modelled.parse_hex, hexZero. simpl.
  rewrite list_ascii_of_string_of_list_ascii.
  change (nonempty_digits_value 16 ("0" :: repeat "0" k)%char)
    with (digits_value 16 0 (repeat "0" (S k))%char).
  rewrite digits_value_zeros by lia. simpl.
  unfold Modelled.rescale. simpl. rewrite Hs. simpl.
  unfold Modelled.round_to. simpl.
  destruct (precision <? 0) eqn:E; [apply Z.ltb_lt in E; lia|].
  destruct (scale - 0 <=? Z.to_nat precision)%nat; simpl;
    unfold Modelled.print, Modelled.render; simpl;
    rewrite ?round_half_up_zero, shorten_zero; reflexivity.
Qed.

Section Properties.

Variable I : Imports.
Variable inputValue : string.
Variable o : UseCurrencyOptions.t.
Variable store : Store.t.

(** The [value] part of the result is what the [useMemo] callback
    returns. *)
Lemma valueOf_useCurrencyDisplay :
  valueOf (useCurrencyDisplay I inputValue o store)
  = value I inputValue o store.
Proof.
  unfold valueOf, useCurrencyDisplay.
  destruct (value I inputValue o store); reflexivity.
Qed.

(** The hook returns exactly when the callback does. *)
Lemma useCurrencyDisplay_returns (v : option string) :
  value I inputValue o store = Normal v ->
  useCurrencyDisplay I inputValue o store
  = Normal (display o v (suffix I o),
            CurrencyDisplayParts.mk (UseCurrencyOptions.prefix o) v
              (suffix I o)).
Proof. unfold useCurrencyDisplay. now intros ->. Qed.

Lemma useCurrencyDisplay_throws (e : string) :
  value I inputValue o store = Throw e ->
  useCurrencyDisplay I inputValue o store = Throw e.
Proof. unfold useCurrencyDisplay. now intros ->. Qed.

(** The first conversion branch, spelled out. *)
Lemma value_native :
  truthy (UseCurrencyOptions.displayValue o) = false ->
  nativePath o store = true ->
  value I inputValue o store
  = (e <- ethDisplayValue I inputValue o
            (or_default (UseCurrencyOptions.numberOfDecimals o)
               DEFAULT_PRECISION_DECIMALS) ;;
     Normal (Some (orMinDisplayAmount inputValue e))).
Proof. unfold value. now intros -> ->. Qed.

(** The second conversion branch, spelled out. *)
Lemma value_fiat :
  truthy (UseCurrencyOptions.displayValue o) = false ->
  nativePath o store = false ->
  fiatPath o store = true ->
  value I inputValue o store
  = (s <- fiatDisplayValue I inputValue o store
            (or_default (UseCurrencyOptions.numberOfDecimals o) 2) ;;
     Normal (Some s)).
Proof. unfold value. now intros -> -> ->. Qed.

End Properties.

(** Rewrites the value of a call that takes the native-currency branch
    into the chain of [Numeric] calls. *)
Ltac native_branch :=
  rewrite valueOf_useCurrencyDisplay, value_native by assumption.

(** Likewise for the fiat branch. *)
Ltac fiat_branch :=
  rewrite valueOf_useCurrencyDisplay, value_fiat by assumption.

(** C1.  Without a display value and on the native-currency branch, when
    the converted and rounded amount prints as "0" while [Number] of the
    input is not 0, the value returned is "<0.000001". *)
Theorem nonzero_input_shows_minimum
  (I : Imports) (inputValue : string) (o : UseCurrencyOptions.t)
  (store : Store.t) :
  truthy (UseCurrencyOptions.displayValue o) = false ->
  nativePath o store = true ->
  not_zero (Number inputValue) = true ->
  ethDisplayValue I inputValue o
    (or_default (UseCurrencyOptions.numberOfDecimals o)
       DEFAULT_PRECISION_DECIMALS) = Normal "0" ->
  valueOf (useCurrencyDisplay I inputValue o store)
  = Normal (Some "<0.000001").
Proof.
  intros Hd Hn Hz He. native_branch.
  rewrite He. simpl. unfold orMinDisplayAmount.
  now rewrite (not_zero_truthy _ Hz), Hz.
Qed.

Lemma nonzero_input_shows_minimum_witness :
  valueOf (useCurrencyDisplay Modelled.imports "0x1"
             (Example.options "ETH") Example.store)
  = Normal (Some "<0.000001").
Proof.
  apply nonzero_input_shows_minimum; reflexivity.
Defined.

(** C2, as the claim states it, fails: an empty display value is
    supplied, and the value returned is not it (the last branch is
    reached and the value is [null]). *)
Lemma empty_displayValue_not_returned :
  UseCurrencyOptions.displayValue Example.emptyDisplayValue = Some ""
  /\ valueOf (useCurrencyDisplay Modelled.imports Example.oneEther
                Example.emptyDisplayValue Example.store)
     = Normal None
  /\ valueOf (useCurrencyDisplay Modelled.imports Example.oneEther
                Example.emptyDisplayValue Example.store)
     <> Normal (UseCurrencyOptions.displayValue Example.emptyDisplayValue).
Proof. repeat split; try reflexivity. discriminate. Qed.

(** C2, amended.  A display value that is supplied and is not the empty
    string is the value returned, whatever the input, the other options,
    the store and the imported modules are. *)
Theorem displayValue_returned
  (I : Imports) (inputValue : string) (o : UseCurrencyOptions.t)
  (store : Store.t) (d : string) :
  UseCurrencyOptions.displayValue o = Some d ->
  d <> "" ->
  valueOf (useCurrencyDisplay I inputValue o store) = Normal (Some d).
Proof.
  intros Hd Hne.
  rewrite valueOf_useCurrencyDisplay. unfold value.
  now rewrite Hd, (proj2 (truthy_nonempty d) Hne).
Qed.

Lemma displayValue_returned_witness :
  valueOf (useCurrencyDisplay Modelled.imports "0x1" Example.formatted
             Example.store)
  = Normal (Some "12.5").
Proof.
  apply displayValue_returned; [reflexivity | discriminate].
Defined.

(** C3.  Without a display value and on the native-currency branch, an
    input whose [Number] is 0 and whose converted and rounded amount
    prints as "0" has the value "0": the minimum is not substituted. *)
Theorem zero_input_shows_zero
  (I : Imports) (inputValue : string) (o : UseCurrencyOptions.t)
  (store : Store.t) :
  truthy (UseCurrencyOptions.displayValue o) = false ->
  nativePath o store = true ->
  not_zero (Number inputValue) = false ->
  ethDisplayValue I inputValue o
    (or_default (UseCurrencyOptions.numberOfDecimals o)
       DEFAULT_PRECISION_DECIMALS) = Normal "0" ->
  valueOf (useCurrencyDisplay I inputValue o store) = Normal (Some "0").
Proof.
  intros Hd Hn Hz He. native_branch.
  rewrite He. simpl. unfold orMinDisplayAmount.
  now rewrite Hz, andb_false_r.
Qed.

Lemma zero_input_shows_zero_witness :
  valueOf (useCurrencyDisplay Modelled.imports "0x0"
             (Example.options "ETH") Example.store)
  = Normal (Some "0").
Proof.
  apply zero_input_shows_zero; reflexivity.
Defined.

(** A digit is not white space. *)
Lemma digit_not_white_space (radix : Z) (c : ascii) (d : Z) :
  digit_value radix c = Some d ->
  begins (List.map (@rev ascii) white_space) c = false.
Proof.
  destruct (begins (List.map (@rev ascii) white_space) c) eqn:E;
    [|reflexivity].
  unfold digit_value.
  destruct c as [[] [] [] [] [] [] [] []]; try discriminate E;
    cbv zeta; simpl; now rewrite Z.ltb_irrefl.
Qed.

Lemma digits_value_last (radix acc v : Z) (l : list ascii) (c : ascii) :
  digits_value radix acc (l ++ [c])%list = Some v ->
  exists d, digit_value radix c = Some d.
Proof.
  revert acc. induction l as [|a l IH]; intro acc; simpl.
  - destruct (digit_value radix c) as [d|]; [eauto | discriminate].
  - destruct (digit_value radix a); [apply IH | discriminate].
Qed.

(** [Number] reads [0x] and hexadecimal digits as their value. *)
Lemma Number_hexadecimal (r : list ascii) (v : Z) :
  nonempty_digits_value 16 r = Some v ->
  Number (string_of_list_ascii ("0" :: "x" :: r)%char) = Finite v 0.
Proof.
  intro Hv. unfold Number. rewrite list_ascii_of_string_of_list_ascii.
  assert (Ht : trim ("0" :: "x" :: r)%char = ("0" :: "x" :: r)%char).
  { destruct (exists_last (l := r)) as (l & c & ->).
    - intros ->. discriminate Hv.
    - assert (Hc : exists d, digit_value 16 c = Some d).
      { apply (digits_value_last 16 0 v l).
        destruct l; exact Hv. }
      destruct Hc as [d Hd].
      apply (trim_no_white_space "0" c ("x"%char :: l));
        [reflexivity | exact (digit_not_white_space _ _ _ Hd)]. }
  rewrite Ht. simpl. unfold NonDecimalIntegerLiteral. now rewrite Hv.
Qed.

Lemma parse_hex_inversion (s : string) (v : Z) :
  Modelled.parse_hex s = Some v ->
  exists r, list_ascii_of_string s = ("0" :: "x" :: r)%char
            /\ nonempty_digits_value 16 r = Some v.
Proof.
  unfold Modelled.parse_hex.
  destruct (list_ascii_of_string s) as [|a l]; [discriminate|].
  destruct a as [[] [] [] [] [] [] [] []]; try discriminate.
  destruct l as [|b r]; [discriminate|].
  destruct b as [[] [] [] [] [] [] [] []]; try discriminate.
  eauto.
Qed.

(** On the strings the modelled [Numeric] accepts, [Number] is 0
    exactly when the amount is. *)
Lemma Modelled_Number_agrees (s : string) (v : Z) :
  Modelled.parse_hex s = Some v ->
  not_zero (Number s) = negb (v =? 0).
Proof.
  intro Hv. destruct (parse_hex_inversion s v Hv) as (r & Hs & Hr).
  rewrite <- (string_of_list_ascii_of_string s), Hs.
  rewrite (Number_hexadecimal r v Hr).
  unfold not_zero, rounds_to_zero.
  change (0 <? 0) with false. now rewrite andb_false_l, orb_false_r.
Qed.

(** With the modelled [Numeric], every hexadecimal zero is shown as
    "0" on the native-currency branch. *)
Lemma Modelled_hexZero_shows_zero (k : nat) (o : UseCurrencyOptions.t)
  (store : Store.t) (scale : nat) :
  truthy (UseCurrencyOptions.displayValue o) = false ->
  nativePath o store = true ->
  Modelled.unit_scale
    (or_default (UseCurrencyOptions.denomination o) "ETH") = Some scale ->
  0 <= or_default (UseCurrencyOptions.numberOfDecimals o)
         DEFAULT_PRECISION_DECIMALS ->
  valueOf (useCurrencyDisplay Modelled.imports (hexZero k) o store)
  = Normal (Some "0").
Proof.
  intros Hd Hn Hs Hp. native_branch.
  rewrite (Modelled_prints_zero k o _ scale Hs Hp). simpl.
  unfold orMinDisplayAmount. now rewrite Number_hexZero, andb_false_r.
Qed.





(** C5.  With [hideLabel] set, the suffix returned is [undefined] and
    the string is the prefix followed by the value, whatever the
    [suffix] option and the currency are. *)
Theorem hideLabel_drops_suffix
  (I : Imports) (inputValue : string) (o : UseCurrencyOptions.t)
  (store : Store.t) :
  truthy (UseCurrencyOptions.hideLabel o) = true ->
  useCurrencyDisplay I inputValue o store
  = (v <- value I inputValue o store ;;
     Normal (or_default (UseCurrencyOptions.prefix o) ""
             ++ template_value v,
             CurrencyDisplayParts.mk (UseCurrencyOptions.prefix o) v
               None)).
Proof.
  intro Hh. unfold useCurrencyDisplay, suffix, display. rewrite Hh.
  destruct (value I inputValue o store) as [v|e]; simpl; [|reflexivity].
  now rewrite append_empty.
Qed.

Lemma hideLabel_drops_suffix_witness :
  useCurrencyDisplay Modelled.imports Example.oneEther Example.hidden
    Example.store
  = Normal ("~1", CurrencyDisplayParts.mk (Some "~") (Some "1") None).
Proof.
  rewrite (hideLabel_drops_suffix Modelled.imports Example.oneEther
             Example.hidden Example.store); reflexivity.
Defined.

(** C6.  With [hideLabel] not set and no [suffix] option, the suffix
    returned is the currency code itself when the code is a value of
    the test-network ticker table, and the code in upper case, as the
    host's [toUpperCase] makes it, when it is not. *)
Theorem suffix_is_ticker_or_upper_case
  (I : Imports) (inputValue : string) (o : UseCurrencyOptions.t)
  (store : Store.t) (c : string) :
  truthy (UseCurrencyOptions.hideLabel o) = false ->
  truthy (UseCurrencyOptions.suffix o) = false ->
  UseCurrencyOptions.currency o = Some c ->
  (In c (List.map snd (TEST_NETWORK_TICKER_MAP I)) ->
   suffixOf (useCurrencyDisplay I inputValue o store)
   = (_ <- value I inputValue o store ;; Normal (Some c)))
  /\ (~ In c (List.map snd (TEST_NETWORK_TICKER_MAP I)) ->
      suffixOf (useCurrencyDisplay I inputValue o store)
      = (_ <- value I inputValue o store ;;
         Normal (Some (toUpperCase I c)))).
Proof.
  intros Hh Hs Hc.
  assert (Hsuffix : suffix I o
            = if values_include (TEST_NETWORK_TICKER_MAP I) (Some c)
              then Some c else Some (toUpperCase I c)).
  { unfold suffix, or. now rewrite Hh, Hs, Hc. }
  unfold suffixOf, useCurrencyDisplay. rewrite Hsuffix.
  split; intro Hin.
  - apply values_include_In in Hin. rewrite Hin.
    now destruct (value I inputValue o store).
  - destruct (values_include (TEST_NETWORK_TICKER_MAP I) (Some c)) eqn:E.
    + apply values_include_In in E. contradiction.
    + now destruct (value I inputValue o store).
Qed.

Lemma suffix_is_ticker_or_upper_case_witness :
  suffixOf (useCurrencyDisplay Modelled.imports Example.oneEther
              (Example.options "SepoliaETH") Example.sepolia)
  = Normal (Some "SepoliaETH")
  /\ suffixOf (useCurrencyDisplay Modelled.imports Example.oneEther
                 (Example.options "usd") Example.store)
     = Normal (Some "USD").
Proof.
  split.
  - rewrite (proj1 (suffix_is_ticker_or_upper_case Modelled.imports
               Example.oneEther (Example.options "SepoliaETH")
               Example.sepolia "SepoliaETH"
               eq_refl eq_refl eq_refl)).
    + reflexivity.
    + simpl. tauto.
  - rewrite (proj2 (suffix_is_ticker_or_upper_case Modelled.imports
               Example.oneEther (Example.options "usd")
               Example.store "usd"
               eq_refl eq_refl eq_refl)).
    + reflexivity.
    + simpl. intros [H|[H|[]]]; discriminate.
Defined.



(** C8.  When the currency is the native currency, the result does not
    depend on the conversion rate of the store, nor on the fiat modules:
    the fiat branch is not taken. *)
Theorem native_currency_ignores_rate
  (I : Imports) (inputValue : string) (o : UseCurrencyOptions.t)
  (store : Store.t) :
  UseCurrencyOptions.currency o = Store.getNativeCurrency store ->
  (truthy (UseCurrencyOptions.displayValue o) = false ->
   nativePath o store = true /\
   value I inputValue o store
   = (e <- ethDisplayValue I inputValue o
             (or_default (UseCurrencyOptions.numberOfDecimals o)
                DEFAULT_PRECISION_DECIMALS) ;;
      Normal (Some (orMinDisplayAmount inputValue e))))
  /\ forall (rate : option Q) (F : FiatOps),
      useCurrencyDisplay (withFiat F I) inputValue o
        (withConversionRate rate store)
      = useCurrencyDisplay I inputValue o store.
Proof.
  intro Hc.
  assert (Hnative : forall s, Store.getNativeCurrency s
                              = Store.getNativeCurrency store ->
                              nativePath o s = true).
  { intros s Hs. unfold nativePath. rewrite Hs, <- Hc.
    now rewrite (proj2 (strict_eq_true _ _) eq_refl). }
  split.
  - intro Hd. split; [now apply Hnative |].
    apply value_native; [assumption | now apply Hnative].
  - intros rate F. unfold useCurrencyDisplay, value.
    rewrite (Hnative store eq_refl).
    rewrite (Hnative (withConversionRate rate store) eq_refl).
    reflexivity.
Qed.

Lemma native_currency_ignores_rate_witness :
  useCurrencyDisplay (withFiat Example.noFiat Modelled.imports)
    Example.someEther
    (Example.options "ETH")
    (withConversionRate (Some (1 # 3)) Example.store)
  = useCurrencyDisplay Modelled.imports Example.someEther
      (Example.options "ETH") Example.store.
Proof.
  exact (proj2 (native_currency_ignores_rate Modelled.imports
                  Example.someEther (Example.options "ETH")
                  Example.store eq_refl)
           (Some (1 # 3)) Example.noFiat).
Defined.

(** The prefix of the template is the prefix that is supplied. *)
Lemma prefix_or_empty (prefix : option string) :
  or_default prefix "" = match prefix with Some x => x | None => "" end.
Proof.
  destruct prefix as [x|]; [|reflexivity].
  cbv [or_default truthy truthy_string].
  now destruct (String.eqb_spec x "") as [->|].
Qed.

(** C9.  The hook returns a string and parts exactly when the parts are
    the [prefix] option, the value of the callback and the resolved
    suffix, and the string is, in a row: the prefix, or nothing when it
    is missing; the value, a [null] one by its name; and a space and the
    suffix, or nothing when the suffix is missing or empty. *)
Theorem display_is_concatenation
  (I : Imports) (inputValue : string) (o : UseCurrencyOptions.t)
  (store : Store.t) (s : string) (p : CurrencyDisplayParts.t) :
  useCurrencyDisplay I inputValue o store = Normal (s, p)
  <-> (CurrencyDisplayParts.prefix p = UseCurrencyOptions.prefix o
       /\ value I inputValue o store
          = Normal (CurrencyDisplayParts.value p)
       /\ CurrencyDisplayParts.suffix p = suffix I o
       /\ s = (match CurrencyDisplayParts.prefix p with
               | Some x => x
               | None => ""
               end
               ++ match CurrencyDisplayParts.value p with
                  | Some v => v
                  | None => "null"
                  end
               ++ match CurrencyDisplayParts.suffix p with
                  | Some "" => ""
                  | Some x => " " ++ x
                  | None => ""
                  end)%string).
Proof.
  assert (Hs : forall sfx : option string,
            match sfx with
            | Some x => if truthy x then (" " ++ x)%string else ""
            | None => ""
            end
            = match sfx with
              | Some "" => ""
              | Some x => (" " ++ x)%string
              | None => ""
              end).
  { intros [[|a x]|]; reflexivity. }
  unfold useCurrencyDisplay, display.
  rewrite prefix_or_empty, Hs. split.
  - destruct (value I inputValue o store) as [v|e]; simpl;
      [|discriminate].
    intros [= <- <-]. simpl. repeat split; reflexivity.
  - destruct p as [pp pv ps]. simpl. intros (-> & -> & -> & ->).
    reflexivity.
Qed.

Lemma display_is_concatenation_witness :
  useCurrencyDisplay Modelled.imports Example.oneEther Example.prefixed
    Example.store
  = Normal ("~null EUR",
            CurrencyDisplayParts.mk (Some "~") None (Some "EUR"))
  /\ useCurrencyDisplay Modelled.imports Example.someEther
       Example.approximate Example.store
     = Normal ("about 1.234568 ETH",
               CurrencyDisplayParts.mk (Some "about ") (Some "1.234568")
                 (Some "ETH")).
Proof.
  split.
  - apply (proj2 (display_is_concatenation Modelled.imports
                    Example.oneEther Example.prefixed Example.store
                    "~null EUR"
                    (CurrencyDisplayParts.mk (Some "~") None
                       (Some "EUR")))).
    repeat split; reflexivity.
  - apply (proj2 (display_is_concatenation Modelled.imports
                    Example.someEther Example.approximate Example.store
                    "about 1.234568 ETH"
                    (CurrencyDisplayParts.mk (Some "about ")
                       (Some "1.234568") (Some "ETH")))).
    repeat split; reflexivity.
Defined.



(* ================================================================= *)
(** ** Further properties of the hook *)

Lemma values_include_undefined (map : list (string * string)) :
  values_include map None = false.
Proof.
  unfold values_include. induction (List.map snd map) as [|v l IH];
    [reflexivity | exact IH].
Qed.

(** X1.  With [hideLabel] not set, a [suffix] option that is not the
    empty string is the suffix returned and is appended after a space,
    whatever the currency and the ticker table are. *)
Theorem caller_suffix_wins
  (I : Imports) (inputValue : string) (o : UseCurrencyOptions.t)
  (store : Store.t) (s : string) :
  truthy (UseCurrencyOptions.hideLabel o) = false ->
  UseCurrencyOptions.suffix o = Some s ->
  s <> "" ->
  useCurrencyDisplay I inputValue o store
  = (v <- value I inputValue o store ;;
     Normal (or_default (UseCurrencyOptions.prefix o) ""
             ++ template_value v ++ " " ++ s,
             CurrencyDisplayParts.mk (UseCurrencyOptions.prefix o) v
               (Some s))).
Proof.
  intros Hh Hs Hne.
  assert (Ht : truthy (Some s) = true) by now apply truthy_nonempty.
  assert (Hsuffix : suffix I o = Some s).
  { unfold suffix, or. now rewrite Hh, Hs, Ht. }
  unfold useCurrencyDisplay, display. rewrite Hsuffix.
  change (truthy s = true) in Ht. rewrite Ht.
  now destruct (value I inputValue o store).
Qed.

Lemma caller_suffix_wins_witness :
  useCurrencyDisplay Modelled.imports Example.oneEther Example.labelled
    Example.store
  = Normal ("$2,000.00 dollars",
            CurrencyDisplayParts.mk None (Some "$2,000.00")
              (Some "dollars")).
Proof.
  rewrite (caller_suffix_wins Modelled.imports Example.oneEther
             Example.labelled Example.store "dollars");
    [reflexivity | reflexivity | reflexivity | discriminate].
Defined.

(** Without a currency and without a [suffix] option there is no
    suffix. *)
Lemma suffix_without_currency (I : Imports) (o : UseCurrencyOptions.t) :
  UseCurrencyOptions.currency o = None ->
  truthy (UseCurrencyOptions.suffix o) = false ->
  suffix I o = None.
Proof.
  intros Hc Hs. unfold suffix, or.
  rewrite Hs, Hc, values_include_undefined.
  now destruct (truthy (UseCurrencyOptions.hideLabel o)).
Qed.

(** X2.  With no [currency] option and no [suffix] option, the suffix
    returned is [undefined] (the optional call of [toUpperCase] is
    skipped) and nothing follows the value in the string. *)
Theorem no_currency_no_label
  (I : Imports) (inputValue : string) (o : UseCurrencyOptions.t)
  (store : Store.t) :
  UseCurrencyOptions.currency o = None ->
  truthy (UseCurrencyOptions.suffix o) = false ->
  useCurrencyDisplay I inputValue o store
  = (v <- value I inputValue o store ;;
     Normal (or_default (UseCurrencyOptions.prefix o) ""
             ++ template_value v,
             CurrencyDisplayParts.mk (UseCurrencyOptions.prefix o) v
               None)).
Proof.
  intros Hc Hs.
  unfold useCurrencyDisplay, display.
  rewrite (suffix_without_currency I o Hc Hs).
  destruct (value I inputValue o store) as [v|e]; simpl; [|reflexivity].
  now rewrite append_empty.
Qed.

Lemma no_currency_no_label_witness :
  useCurrencyDisplay Modelled.imports Example.oneEther Example.bare
    Example.noNative
  = Normal ("~1", CurrencyDisplayParts.mk (Some "~") (Some "1") None).
Proof.
  rewrite (no_currency_no_label Modelled.imports Example.oneEther
             Example.bare Example.noNative); reflexivity.
Defined.

(** X3.  On the native-currency branch the value is the minimum exactly
    when [Numeric] prints "0" and [Number(inputValue)] is not 0, and is
    the string [Numeric] prints in every other case; for a string the
    test of [inputValue] itself decides nothing. *)
Theorem minimum_only_replaces_zero
  (I : Imports) (inputValue : string) (o : UseCurrencyOptions.t)
  (store : Store.t) (e : string) :
  truthy (UseCurrencyOptions.displayValue o) = false ->
  nativePath o store = true ->
  ethDisplayValue I inputValue o
    (or_default (UseCurrencyOptions.numberOfDecimals o)
       DEFAULT_PRECISION_DECIMALS) = Normal e ->
  valueOf (useCurrencyDisplay I inputValue o store)
  = Normal (Some (if (e =? "0")%string && not_zero (Number inputValue)
                  then "<0.000001" else e)).
Proof.
  intros Hd Hn He. native_branch. rewrite He. simpl.
  unfold orMinDisplayAmount.
  destruct (not_zero (Number inputValue)) eqn:Hz.
  - now rewrite (not_zero_truthy _ Hz), andb_true_r.
  - now rewrite !andb_false_r.
Qed.

Lemma minimum_only_replaces_zero_witness :
  valueOf (useCurrencyDisplay Modelled.imports "0xe8d4a51000"
             (Example.options "ETH") Example.store)
  = Normal (Some "0.000001").
Proof.
  rewrite (minimum_only_replaces_zero Modelled.imports "0xe8d4a51000"
             (Example.options "ETH") Example.store "0.000001");
    reflexivity.
Defined.

(** X4.  The conversion rate and the fiat modules matter on the fiat
    branch only: with a display value, on the native-currency branch,
    or for a currency that is not the preferred one, the result is the
    same for every rate and every fiat module. *)
Theorem rate_matters_on_fiat_branch_only
  (I : Imports) (inputValue : string) (o : UseCurrencyOptions.t)
  (store : Store.t) :
  truthy (UseCurrencyOptions.displayValue o) = true
  \/ nativePath o store = true
  \/ isUserPreferredCurrency o store = false ->
  forall (rate : option Q) (F : FiatOps),
    useCurrencyDisplay (withFiat F I) inputValue o
      (withConversionRate rate store)
    = useCurrencyDisplay I inputValue o store.
Proof.
  intros H rate F. unfold useCurrencyDisplay, value.
  change (nativePath o (withConversionRate rate store))
    with (nativePath o store).
  assert (Hf : isUserPreferredCurrency o store = false ->
               fiatPath o (withConversionRate rate store) = false
               /\ fiatPath o store = false).
  { unfold fiatPath.
    change (isUserPreferredCurrency o (withConversionRate rate store))
      with (isUserPreferredCurrency o store).
    now intros ->. }
  destruct H as [-> | [-> | Hu]]; [reflexivity | |].
  - now destruct (truthy (UseCurrencyOptions.displayValue o)).
  - destruct (Hf Hu) as [-> ->].
    destruct (truthy (UseCurrencyOptions.displayValue o));
      [reflexivity|].
    now destruct (nativePath o store).
Qed.

Lemma rate_matters_on_fiat_branch_only_witness :
  useCurrencyDisplay (withFiat Example.noFiat Modelled.imports)
    Example.oneEther (Example.options "eur")
    (withConversionRate None Example.store)
  = useCurrencyDisplay Modelled.imports Example.oneEther
      (Example.options "eur") Example.store.
Proof.
  apply (rate_matters_on_fiat_branch_only Modelled.imports
           Example.oneEther (Example.options "eur") Example.store).
  right. right. reflexivity.
Defined.

(** X5.  [Numeric] is called on the native-currency branch only: with
    a display value, or off that branch, the result is the same for
    every [Numeric] and all names of denominations. *)
Theorem Numeric_matters_on_native_branch_only
  (I : Imports) (inputValue : string) (o : UseCurrencyOptions.t)
  (store : Store.t) :
  truthy (UseCurrencyOptions.displayValue o) = true
  \/ nativePath o store = false ->
  forall (N : NumericOps) (E : EtherDenomination.t),
    useCurrencyDisplay (withNumeric N E I) inputValue o store
    = useCurrencyDisplay I inputValue o store.
Proof.
  intros H N E. unfold useCurrencyDisplay, value.
  destruct H as [-> | ->]; [reflexivity|].
  now destruct (truthy (UseCurrencyOptions.displayValue o)).
Qed.

Lemma Numeric_matters_on_native_branch_only_witness :
  useCurrencyDisplay
    (withNumeric Example.noNumeric (EtherDenomination.mk "" "")
       Modelled.imports)
    Example.oneEther (Example.options "usd") Example.store
  = Normal ("$2,000.00 USD",
            CurrencyDisplayParts.mk None (Some "$2,000.00")
              (Some "USD")).
Proof.
  rewrite (Numeric_matters_on_native_branch_only Modelled.imports
             Example.oneEther (Example.options "usd") Example.store);
    [reflexivity | right; reflexivity].
Defined.

(** X6.  The hook throws exactly when there is no display value and the
    module called on the branch taken throws, and it throws what that
    module throws: nothing is caught and nothing else is raised. *)
Theorem throws_what_the_import_throws
  (I : Imports) (inputValue : string) (o : UseCurrencyOptions.t)
  (store : Store.t) (e : string) :
  useCurrencyDisplay I inputValue o store = Throw e
  <-> truthy (UseCurrencyOptions.displayValue o) = false
      /\ ((nativePath o store = true
           /\ ethDisplayValue I inputValue o
                (or_default (UseCurrencyOptions.numberOfDecimals o)
                   DEFAULT_PRECISION_DECIMALS) = Throw e)
          \/ (nativePath o store = false
              /\ fiatPath o store = true
              /\ fiatDisplayValue I inputValue o store
                   (or_default (UseCurrencyOptions.numberOfDecimals o) 2)
                 = Throw e)).
Proof.
  unfold useCurrencyDisplay, value. split.
  - destruct (truthy (UseCurrencyOptions.displayValue o));
      [discriminate|].
    destruct (nativePath o store).
    + destruct (ethDisplayValue I inputValue o _) as [x|x]; simpl;
        [discriminate|].
      intros [= ->]. split; [reflexivity|]. left. now split.
    + destruct (fiatPath o store); [|discriminate].
      destruct (fiatDisplayValue I inputValue o store _) as [x|x]; simpl;
        [discriminate|].
      intros [= ->]. split; [reflexivity|]. right. now repeat split.
  - intros [-> [[-> ->] | (-> & -> & ->)]]; reflexivity.
Qed.

Lemma throws_what_the_import_throws_witness :
  useCurrencyDisplay (withFiat Example.noFiat Modelled.imports)
    Example.oneEther (Example.options "usd") Example.store
  = Throw "unavailable".
Proof.
  apply (proj2 (throws_what_the_import_throws
                  (withFiat Example.noFiat Modelled.imports)
                  Example.oneEther (Example.options "usd") Example.store
                  "unavailable")).
  split; [reflexivity|]. right. repeat split; reflexivity.
Defined.

Lemma strict_eq_false (a b : option string) :
  a <> b -> strict_eq a b = false.
Proof.
  intro H. destruct (strict_eq a b) eqn:E; [|reflexivity].
  apply strict_eq_true in E. contradiction.
Qed.

(** X7.  An omitted [currency] does not stand for the native currency:
    on a store that has a native and a preferred currency, with no
    display value and no label, the value is [null] and the string is
    the prefix followed by "null". *)
Theorem omitted_currency_shows_null
  (I : Imports) (inputValue : string) (o : UseCurrencyOptions.t)
  (store : Store.t) (preferred : string) :
  UseCurrencyOptions.currency o = None ->
  truthy (Store.getNativeCurrency store) = true ->
  Store.getCurrentCurrency store = Some preferred ->
  truthy (UseCurrencyOptions.displayValue o) = false ->
  truthy (UseCurrencyOptions.suffix o) = false ->
  useCurrencyDisplay I inputValue o store
  = Normal (or_default (UseCurrencyOptions.prefix o) "" ++ "null",
            CurrencyDisplayParts.mk (UseCurrencyOptions.prefix o) None
              None).
Proof.
  intros Hc Hn Hp Hd Hs.
  assert (Hv : value I inputValue o store = Normal None).
  { unfold value, nativePath, fiatPath, isUserPreferredCurrency.
    rewrite Hd, Hc, Hp, Hn.
    destruct (Store.getNativeCurrency store); [reflexivity|].
    discriminate Hn. }
  rewrite (useCurrencyDisplay_returns I inputValue o store None Hv).
  unfold display. rewrite (suffix_without_currency I o Hc Hs).
  now rewrite append_empty.
Qed.

Lemma omitted_currency_shows_null_witness :
  useCurrencyDisplay Modelled.imports Example.oneEther Example.bare
    Example.store
  = Normal ("~null", CurrencyDisplayParts.mk (Some "~") None None).
Proof.
  apply (omitted_currency_shows_null Modelled.imports Example.oneEther
           Example.bare Example.store "usd"); reflexivity.
Defined.

(** X8.  On a store without a native currency, a currency that is not
    the preferred one takes the native-currency branch: the amount is
    converted by [Numeric], and no rate is applied. *)
Theorem no_native_currency_converts_natively
  (I : Imports) (inputValue : string) (o : UseCurrencyOptions.t)
  (store : Store.t) :
  truthy (Store.getNativeCurrency store) = false ->
  UseCurrencyOptions.currency o <> Store.getCurrentCurrency store ->
  truthy (UseCurrencyOptions.displayValue o) = false ->
  valueOf (useCurrencyDisplay I inputValue o store)
  = (e <- ethDisplayValue I inputValue o
            (or_default (UseCurrencyOptions.numberOfDecimals o)
               DEFAULT_PRECISION_DECIMALS) ;;
     Normal (Some (orMinDisplayAmount inputValue e))).
Proof.
  intros Hn Hc Hd.
  assert (Hp : nativePath o store = true).
  { unfold nativePath, isUserPreferredCurrency.
    rewrite (strict_eq_false _ _ Hc), Hn. apply orb_true_r. }
  now native_branch.
Qed.

Lemma no_native_currency_converts_natively_witness :
  valueOf (useCurrencyDisplay Modelled.imports Example.oneEther
             (Example.options "eur") Example.noNative)
  = Normal (Some "1").
Proof.
  rewrite (no_native_currency_converts_natively Modelled.imports
             Example.oneEther (Example.options "eur") Example.noNative);
    [reflexivity | reflexivity | discriminate | reflexivity].
Defined.

(** X9.  For the preferred currency, when it is not the native one and
    the store has a rate that is not 0, the value is what
    [formatCurrency] makes, for that currency, of the result of
    [getValueFromWeiHex] from the native currency at that rate; the
    denomination is passed on as it is, and no minimum is
    substituted. *)
Theorem preferred_currency_is_formatted
  (I : Imports) (inputValue : string) (o : UseCurrencyOptions.t)
  (store : Store.t) :
  UseCurrencyOptions.currency o = Store.getCurrentCurrency store ->
  UseCurrencyOptions.currency o <> Store.getNativeCurrency store ->
  truthy (Store.getConversionRate store) = true ->
  truthy (UseCurrencyOptions.displayValue o) = false ->
  valueOf (useCurrencyDisplay I inputValue o store)
  = (v <- getValueFromWeiHex (Fiat I)
            (GetValueFromWeiHex.mk inputValue
               (Store.getNativeCurrency store)
               (UseCurrencyOptions.currency o)
               (Store.getConversionRate store)
               (or_default (UseCurrencyOptions.numberOfDecimals o) 2)
               (UseCurrencyOptions.denomination o)) ;;
     s <- formatCurrency (Fiat I) v (UseCurrencyOptions.currency o) ;;
     Normal (Some s)).
Proof.
  intros Hc Hn Hr Hd.
  assert (Hu : isUserPreferredCurrency o store = true).
  { unfold isUserPreferredCurrency. now apply strict_eq_true. }
  assert (Hp : nativePath o store = false).
  { unfold nativePath. now rewrite (strict_eq_false _ _ Hn), Hu. }
  assert (Hf : fiatPath o store = true).
  { unfold fiatPath. now rewrite Hu, Hr. }
  fiat_branch. unfold fiatDisplayValue.
  now destruct (getValueFromWeiHex (Fiat I) _).
Qed.

Lemma preferred_currency_is_formatted_witness :
  valueOf (useCurrencyDisplay Modelled.imports "0x1"
             (Example.options "usd") Example.store)
  = Normal (Some "$0.00").
Proof.
  rewrite (preferred_currency_is_formatted Modelled.imports "0x1"
             (Example.options "usd") Example.store);
    [reflexivity | reflexivity | discriminate | reflexivity
    | reflexivity].
Defined.

(** X10.  A conversion rate of 0 is no rate: for the preferred currency,
    when it is not the native one, the value is [null] and no module is
    called. *)
Theorem zero_rate_is_no_rate
  (I : Imports) (inputValue : string) (o : UseCurrencyOptions.t)
  (store : Store.t) (rate : Q) :
  UseCurrencyOptions.currency o = Store.getCurrentCurrency store ->
  UseCurrencyOptions.currency o <> Store.getNativeCurrency store ->
  Store.getConversionRate store = Some rate ->
  (rate == 0)%Q ->
  truthy (UseCurrencyOptions.displayValue o) = false ->
  useCurrencyDisplay I inputValue o store
  = Normal (display o None (suffix I o),
            CurrencyDisplayParts.mk (UseCurrencyOptions.prefix o) None
              (suffix I o)).
Proof.
  intros Hc Hn Hr Hz Hd. apply useCurrencyDisplay_returns.
  assert (Hu : isUserPreferredCurrency o store = true).
  { unfold isUserPreferredCurrency. now apply strict_eq_true. }
  unfold value, nativePath, fiatPath.
  rewrite Hd, (strict_eq_false _ _ Hn), Hu, Hr. simpl.
  cbv [truthy truthy_option truthy_Q].
  now rewrite (proj2 (Qeq_bool_iff rate 0) Hz).
Qed.

Lemma zero_rate_is_no_rate_witness :
  useCurrencyDisplay Modelled.imports Example.oneEther
    (Example.options "usd") Example.zeroRate
  = Normal ("null USD", CurrencyDisplayParts.mk None None (Some "USD")).
Proof.
  apply (zero_rate_is_no_rate Modelled.imports Example.oneEther
           (Example.options "usd") Example.zeroRate (0 # 1));
    [reflexivity | discriminate | reflexivity | reflexivity
    | reflexivity].
Defined.

(** *** The memoised value *)

Lemma is_Z_eq (a b : option Z) : Memo.is_Z a b = true -> a = b.
Proof.
  destruct a as [x|], b as [y|]; simpl; try discriminate;
    [|reflexivity].
  intro H. apply Z.eqb_eq in H. now subst.
Qed.

Lemma is_Q_eq (a b : option Q) : Memo.is_Q a b = true -> a = b.
Proof.
  destruct a as [[xn xd]|], b as [[yn yd]|]; simpl; try discriminate;
    [|reflexivity].
  intro H. apply andb_true_iff in H. destruct H as [Hn Hd].
  apply Z.eqb_eq in Hn. apply Pos.eqb_eq in Hd. now subst.
Qed.

Lemma unchanged_eq (a b : Deps.t) : Memo.unchanged a b = true -> a = b.
Proof.
  unfold Memo.unchanged. intro H.
  repeat (apply andb_true_iff in H; let H' := fresh "H" in
          destruct H as [H H']).
  destruct a, b. simpl in *.
  apply String.eqb_eq in H.
  repeat match goal with
         | E : strict_eq _ _ = true |- _ => apply strict_eq_true in E
         | E : Memo.is_Z _ _ = true |- _ => apply is_Z_eq in E
         | E : Memo.is_Q _ _ = true |- _ => apply is_Q_eq in E
         | E : Bool.eqb _ _ = true |- _ => apply Bool.eqb_prop in E
         end.
  now subst.
Qed.

(** The callback reads nothing but the entries of its dependency
    list. *)
Lemma value_reads_its_dependencies (I : Imports)
  (i1 i2 : string) (o1 o2 : UseCurrencyOptions.t) (s1 s2 : Store.t) :
  Memo.depsOf i1 o1 s1 = Memo.depsOf i2 o2 s2 ->
  value I i1 o1 s1 = value I i2 o2 s2.
Proof.
  unfold Memo.depsOf. intros [= Hi Hn Hr Hd Hp Hm Hc Hu].
  unfold value, nativePath, fiatPath, ethDisplayValue, fiatDisplayValue,
    orMinDisplayAmount.
  now rewrite Hi, Hn, Hr, Hd, Hp, Hm, Hc, Hu.
Qed.

Lemma render_is_fresh (I : Imports) (c : Memo.cell) (i : string)
  (o : UseCurrencyOptions.t) (store : Store.t) :
  fresh I c ->
  fst (Memo.render I c i o store) = useCurrencyDisplay I i o store
  /\ fresh I (snd (Memo.render I c i o store)).
Proof.
  intro Hc. unfold Memo.render, Memo.useMemo, useCurrencyDisplay.
  assert (Hcompute :
    forall c0, fresh I c0 ->
    let r := match value I i o store with
             | Normal v => (Normal v, Some (Memo.depsOf i o store, v))
             | Throw e => (Throw e, c0)
             end in
    fst r = value I i o store /\ fresh I (snd r)).
  { intros c0 H0. destruct (value I i o store) as [v|e] eqn:Ev; simpl.
    - split; [reflexivity|]. intros d v' [= <- <-] i' o' s' Hd.
      now rewrite (value_reads_its_dependencies I i' i o' o s' store Hd).
    - split; [reflexivity | exact H0]. }
  destruct c as [[d v]|].
  - destruct (Memo.unchanged d (Memo.depsOf i o store)) eqn:Eu.
    + apply unchanged_eq in Eu.
      rewrite (Hc d v eq_refl i o store (eq_sym Eu)). simpl.
      split; [reflexivity | exact Hc].
    + destruct (Hcompute (Some (d, v)) Hc) as [H1 H2].
      destruct (value I i o store) as [v'|e]; simpl in *;
        split; try reflexivity; assumption.
  - destruct (Hcompute None Hc) as [H1 H2].
    destruct (value I i o store) as [v'|e]; simpl in *;
      split; try reflexivity; assumption.
Qed.

Lemma renders_of_fresh (I : Imports) (calls : list Memo.call) :
  forall c, fresh I c ->
  Memo.renders I c calls
  = List.map (fun x : Memo.call =>
                let '(i, o, store) := x in useCurrencyDisplay I i o store)
      calls.
Proof.
  induction calls as [|[[i o] store] rest IH]; intros c Hc;
    [reflexivity|].
  simpl. destruct (render_is_fresh I c i o store Hc) as [H1 H2].
  destruct (Memo.render I c i o store) as [r c']. simpl in *.
  now rewrite H1, (IH c' H2).
Qed.

(** X11.  The value [useMemo] keeps is never stale: in every sequence
    of renders, with any arguments and any store at each of them, each
    render returns what the hook returns when it runs the callback
    anew.  The dependency list of lines 90-99 names all the callback
    reads. *)
Theorem memoised_value_is_never_stale
  (I : Imports) (calls : list Memo.call) :
  Memo.renders I None calls
  = List.map (fun x : Memo.call =>
                let '(i, o, store) := x in useCurrencyDisplay I i o store)
      calls.
Proof.
  apply renders_of_fresh. intros d v H. discriminate H.
Qed.

(** X12.  A [denomination] that is absent or the empty string is read
    as [EtherDenomination.ETH] by the native-currency branch: with a
    display value, on that branch, or off the fiat branch, the result is
    that of the call without the option. *)
Theorem empty_denomination_is_ether
  (I : Imports) (inputValue : string) (o : UseCurrencyOptions.t)
  (store : Store.t) :
  truthy (UseCurrencyOptions.denomination o) = false ->
  truthy (UseCurrencyOptions.displayValue o) = true
  \/ nativePath o store = true
  \/ fiatPath o store = false ->
  useCurrencyDisplay I inputValue o store
  = useCurrencyDisplay I inputValue (withDenomination None o) store
  /\ forall precision : Z,
      ethDisplayValue I inputValue o precision
      = (n0 <- Numeric_new (Numeric I) inputValue 16
                 (EtherDenomination.WEI (EtherDenominations I)) ;;
         n1 <- toDenomination (Numeric I) n0
                 (EtherDenomination.ETH (EtherDenominations I)) ;;
         n2 <- round (Numeric I) n1 precision ;;
         n3 <- toBase (Numeric I) n2 10 ;;
         toString (Numeric I) n3).
Proof.
  intros Hm H.
  assert (He : forall precision,
            ethDisplayValue I inputValue o precision
            = ethDisplayValue I inputValue (withDenomination None o)
                precision).
  { intro precision. unfold ethDisplayValue.
    now rewrite (or_default_falsy _ _ Hm). }
  split.
  - unfold useCurrencyDisplay, value.
    change (nativePath (withDenomination None o) store)
      with (nativePath o store).
    change (fiatPath (withDenomination None o) store)
      with (fiatPath o store).
    change (suffix I (withDenomination None o)) with (suffix I o).
    change (UseCurrencyOptions.displayValue (withDenomination None o))
      with (UseCurrencyOptions.displayValue o).
    change (UseCurrencyOptions.numberOfDecimals (withDenomination None o))
      with (UseCurrencyOptions.numberOfDecimals o).
    rewrite <- He.
    destruct H as [-> | [-> | ->]]; [reflexivity | |].
    + now destruct (truthy (UseCurrencyOptions.displayValue o)).
    + destruct (truthy (UseCurrencyOptions.displayValue o));
        [reflexivity|].
      now destruct (nativePath o store).
  - intro precision. unfold ethDisplayValue.
    now rewrite (or_default_falsy _ _ Hm).
Qed.

Lemma empty_denomination_is_ether_witness :
  useCurrencyDisplay Modelled.imports Example.oneEther
    Example.emptyDenomination Example.store
  = Normal ("1 ETH", CurrencyDisplayParts.mk None (Some "1") (Some "ETH")).
Proof.
  rewrite (proj1 (empty_denomination_is_ether Modelled.imports
                    Example.oneEther Example.emptyDenomination
                    Example.store eq_refl (or_intror (or_introl eq_refl))));
    reflexivity.
Defined.
